(** * actions-runner-controller: the Runner resource (api/v1alpha1/runner_types.go)

    A shallow embedding of the [RunnerSpec], [RunnerStatus] and [Runner]
    types of package [v1alpha1], of [RunnerSpec.ValidateRepository] and of
    [Runner.IsRegisterable], followed by the properties the specification
    states about scope validation and registerability. *)

From Stdlib Require Import ZArith String Bool Lia.
From stdpp Require Import base strings gmap.

Local Open Scope string_scope.
Local Open Scope Z_scope.

(** ** Go built-ins *)

(** [len(s)] of a Go string, an [int]. *)
Definition len (s : string) : Z := Z.of_nat (String.length s).

(** ** Package errors *)

Module errors.

(** An [error] value built by [errors.New]; it is identified by its text.
    The nil error is [None] of [option error]. *)
Inductive error : Type :=
| New (text : string).

Definition Error (e : error) : string :=
  match e with New text => text end.

End errors.

(** ** Package time

    A [time.Time] is an instant: whole seconds since the epoch and the
    nanoseconds within that second.  The comparisons are the ones the
    package makes on the wall-clock reading ([sec()] first, [nsec()] next);
    the process-local monotonic reading is not part of the model, as it is
    not part of a timestamp that went through the API server.  Integers are
    unbounded here. *)

Module time.

Record Time : Type := mkTime { sec : Z; nsec : Z }.

(** A [Duration] counts nanoseconds. *)
Definition Duration : Type := Z.

Definition Nanosecond : Duration := 1.
Definition Second : Duration := 1000000000 * Nanosecond.
Definition Minute : Duration := 60 * Second.
Definition Hour : Duration := 60 * Minute.

(** [t.Before(u)]: the instant [t] is before [u]. *)
Definition Before (t u : Time) : bool :=
  (sec t <? sec u) || ((sec t =? sec u) && (nsec t <? nsec u)).

(** [t.After(u)]: the instant [t] is after [u]. *)
Definition After (t u : Time) : bool :=
  (sec u <? sec t) || ((sec t =? sec u) && (nsec u <? nsec t)).

(** [t.Equal(u)]: [t] and [u] are the same instant. *)
Definition Equal (t u : Time) : bool :=
  (sec t =? sec u) && (nsec t =? nsec u).

(** [t.Add(d)]: Go's [/] and [%] truncate towards zero, and the nanosecond
    field is brought back into one second. *)
Definition Add (t : Time) (d : Duration) : Time :=
  let dsec := Z.quot d 1000000000 in
  let n := nsec t + Z.rem d 1000000000 in
  if 1000000000 <=? n then mkTime (sec t + (dsec + 1)) (n - 1000000000)
  else if n <? 0 then mkTime (sec t + (dsec - 1)) (n + 1000000000)
  else mkTime (sec t + dsec) n.

End time.

(** ** Package metav1 (k8s.io/apimachinery) *)

Module metav1.

(** [metav1.Time] embeds a [time.Time]. *)
Record Time : Type := mkTime { Time_ : time.Time }.

(** [func (t *Time) Before(u *Time) bool]: both arguments are pointers,
    and a nil pointer on either side answers false. *)
Definition Before (t u : option Time) : bool :=
  match t, u with
  | Some t', Some u' => time.Before (Time_ t') (Time_ u')
  | _, _ => false
  end.

(** [NewTime] wraps a [time.Time]. *)
Definition NewTime (t : time.Time) : Time := mkTime t.

(** The object metadata types are carried by a [Runner] and never read. *)
Class Types : Type := {
  TypeMeta : Type;
  ObjectMeta : Type;
  ListMeta : Type
}.

End metav1.

(** ** Package corev1 (k8s.io/api/core/v1)

    The pod and container types of a [RunnerSpec].  The code under study
    stores them and hands them on; it reads none of them, so they are taken
    as parameters. *)

Module corev1.

Class Types : Type := {
  Container : Type;
  ResourceRequirements : Type;
  VolumeMount : Type;
  EnvFromSource : Type;
  EnvVar : Type;
  Volume : Type;
  PodSecurityContext : Type;
  LocalObjectReference : Type;
  Affinity : Type;
  Toleration : Type;
  EphemeralContainer : Type
}.

(** [type PullPolicy string] *)
Definition PullPolicy : Type := string.

End corev1.

(** ** Package v1alpha1 *)

(** [RunnerSpec] defines the desired state of Runner.  A pointer field is an
    [option], a slice a [list], the node selector a finite map. *)
Module RunnerSpec.

Record t {C : corev1.Types} : Type := mk {
  Enterprise : string;
  Organization : string;
  Repository : string;
  Labels : list string;
  Group : string;
  Ephemeral : option bool;
  Containers : list corev1.Container;
  DockerdContainerResources : corev1.ResourceRequirements;
  DockerVolumeMounts : list corev1.VolumeMount;
  Resources : corev1.ResourceRequirements;
  VolumeMounts : list corev1.VolumeMount;
  EnvFrom : list corev1.EnvFromSource;
  Image : string;
  ImagePullPolicy : corev1.PullPolicy;
  Env : list corev1.EnvVar;
  Volumes : list corev1.Volume;
  WorkDir : string;
  InitContainers : list corev1.Container;
  SidecarContainers : list corev1.Container;
  NodeSelector : gmap string string;
  ServiceAccountName : string;
  AutomountServiceAccountToken : option bool;
  SecurityContext : option corev1.PodSecurityContext;
  ImagePullSecrets : list corev1.LocalObjectReference;
  Affinity : option corev1.Affinity;
  Tolerations : list corev1.Toleration;
  EphemeralContainers : list corev1.EphemeralContainer;
  TerminationGracePeriodSeconds : option Z;
  DockerdWithinRunnerContainer : option bool;
  DockerEnabled : option bool;
  DockerMTU : option Z
}.

(** [ValidateRepository] validates repository field: enterprise,
    organization and repository are exclusive.  The receiver is a
    descriptor that exists (a non-nil pointer). *)
Definition ValidateRepository {C : corev1.Types} (rs : t) : option errors.error :=
  let foundCount := 0 in
  let foundCount :=
    if 0 <? len (Organization rs) then foundCount + 1 else foundCount in
  let foundCount :=
    if 0 <? len (Repository rs) then foundCount + 1 else foundCount in
  let foundCount :=
    if 0 <? len (Enterprise rs) then foundCount + 1 else foundCount in
  if foundCount =? 0 then
    Some (errors.New "Spec needs enterprise, organization or repository")
  else if 1 <? foundCount then
    Some (errors.New
      "Spec cannot have many fields defined enterprise, organization and repository")
  else None.

End RunnerSpec.

(** [RunnerStatusRegistration] contains runner registration status. *)
Module RunnerStatusRegistration.

Record t : Type := mk {
  Enterprise : string;
  Organization : string;
  Repository : string;
  Labels : list string;
  Token : string;
  ExpiresAt : metav1.Time
}.

End RunnerStatusRegistration.

(** [RunnerStatus] defines the observed state of Runner. *)
Module RunnerStatus.

Record t : Type := mk {
  Registration : RunnerStatusRegistration.t;
  Phase : string;
  Reason : string;
  Message : string;
  LastRegistrationCheckTime : option metav1.Time
}.

End RunnerStatus.

(** [Runner] is the Schema for the runners API. *)
Module Runner.

Record t {M : metav1.Types} {C : corev1.Types} : Type := mk {
  TypeMeta : metav1.TypeMeta;
  ObjectMeta : metav1.ObjectMeta;
  Spec : RunnerSpec.t;
  Status : RunnerStatus.t
}.

(** [IsRegisterable].  The method reads the clock once, through
    [metav1.Now()]; the instant that call returns is the argument [now].
    [ExpiresAt] and [now] are both addressable values, so [Before] gets
    two non-nil pointers. *)
Definition IsRegisterable {M : metav1.Types} {C : corev1.Types}
    (r : t) (now : metav1.Time) : bool :=
  if negb (String.eqb
             (RunnerStatusRegistration.Repository
                (RunnerStatus.Registration (Status r)))
             (RunnerSpec.Repository (Spec r)))
  then false
  else if String.eqb
            (RunnerStatusRegistration.Token
               (RunnerStatus.Registration (Status r)))
            EmptyString
  then false
  else if metav1.Before
            (Some (RunnerStatusRegistration.ExpiresAt
                     (RunnerStatus.Registration (Status r))))
            (Some now)
  then false
  else true.

End Runner.

(** [RunnerList] contains a list of Runner. *)
Module RunnerList.

Record t {M : metav1.Types} {C : corev1.Types} : Type := mk {
  TypeMeta : metav1.TypeMeta;
  ListMeta : metav1.ListMeta;
  Items : list Runner.t
}.

End RunnerList.

(** ** The two methods with their effects

    What the methods touch outside their arguments: the system clock, read
    by [metav1.Now()], and the error values that [errors.New] allocates.  A
    computation takes the state of the process and returns its result with
    the state it leaves. *)

Module runtime.

(** An error value is a pointer to its text: the address of an entry of
    [errorTexts]. *)
Definition errorRef : Type := nat.

(** The clock answers [clock 0] at the first reading, [clock 1] at the next
    one, and so on; [readings] counts the readings taken so far. *)
Record World : Type := mkWorld {
  clock : nat -> metav1.Time;
  readings : nat;
  errorTexts : list string
}.

Definition Go (A : Type) : Type := World -> A * World.

Definition ret {A : Type} (a : A) : Go A := fun w => (a, w).

Definition bind {A B : Type} (c : Go A) (k : A -> Go B) : Go B :=
  fun w => let (a, w') := c w in k a w'.

(** The instant the clock answers at its next reading. *)
Definition current (w : World) : metav1.Time := clock w (readings w).

(** [metav1.Now()]: one reading of the clock. *)
Definition Now : Go metav1.Time :=
  fun w => (current w, mkWorld (clock w) (S (readings w)) (errorTexts w)).

(** [errors.New(text)]: a new error value, distinct from every earlier
    one. *)
Definition New (text : string) : Go errorRef :=
  fun w => (length (errorTexts w),
            mkWorld (clock w) (readings w) (errorTexts w ++ [text])).

(** [err.Error()], in the state [w]. *)
Definition Error (w : World) (err : errorRef) : string :=
  default EmptyString (errorTexts w !! err).

End runtime.

Module Exec.

(** [RunnerSpec.ValidateRepository], lines 105 to 125: the count is
    computed from the receiver, and each error is allocated where it is
    returned. *)
Definition ValidateRepository {C : corev1.Types} (rs : RunnerSpec.t)
  : runtime.Go (option runtime.errorRef) :=
  let foundCount := 0 in
  let foundCount :=
    if 0 <? len (RunnerSpec.Organization rs) then foundCount + 1 else foundCount in
  let foundCount :=
    if 0 <? len (RunnerSpec.Repository rs) then foundCount + 1 else foundCount in
  let foundCount :=
    if 0 <? len (RunnerSpec.Enterprise rs) then foundCount + 1 else foundCount in
  if foundCount =? 0 then
    runtime.bind
      (runtime.New "Spec needs enterprise, organization or repository")
      (fun err => runtime.ret (Some err))
  else if 1 <? foundCount then
    runtime.bind
      (runtime.New
         "Spec cannot have many fields defined enterprise, organization and repository")
      (fun err => runtime.ret (Some err))
  else runtime.ret None.

(** [Runner.IsRegisterable], lines 169 to 184: the clock is read after the
    repository and the token have passed, and not before. *)
Definition IsRegisterable {M : metav1.Types} {C : corev1.Types} (r : Runner.t)
  : runtime.Go bool :=
  if negb (String.eqb
             (RunnerStatusRegistration.Repository
                (RunnerStatus.Registration (Runner.Status r)))
             (RunnerSpec.Repository (Runner.Spec r)))
  then runtime.ret false
  else if String.eqb
            (RunnerStatusRegistration.Token
               (RunnerStatus.Registration (Runner.Status r)))
            EmptyString
  then runtime.ret false
  else
    runtime.bind runtime.Now (fun now =>
      if metav1.Before
           (Some (RunnerStatusRegistration.ExpiresAt
                    (RunnerStatus.Registration (Runner.Status r))))
           (Some now)
      then runtime.ret false
      else runtime.ret true).

End Exec.

(** ** The specification's vocabulary *)

(** The specification names the two validation errors after their cause. *)
Definition MissingScope : errors.error :=
  errors.New "Spec needs enterprise, organization or repository".

Definition AmbiguousScope : errors.error :=
  errors.New
    "Spec cannot have many fields defined enterprise, organization and repository".

(** A scope field is set when it is not the empty string. *)
Definition isSet (s : string) : bool := negb (String.eqb s EmptyString).

(** How many of enterprise, organization and repository are set. *)
Definition scopesSet {C : corev1.Types} (rs : RunnerSpec.t) : nat :=
  length (List.filter isSet
    [RunnerSpec.Enterprise rs; RunnerSpec.Organization rs; RunnerSpec.Repository rs]).

(** The registration a runner carries in its status, and its parts. *)
Definition registration {M : metav1.Types} {C : corev1.Types} (r : Runner.t)
  : RunnerStatusRegistration.t :=
  RunnerStatus.Registration (Runner.Status r).

Definition expiresAt {M : metav1.Types} {C : corev1.Types} (r : Runner.t)
  : metav1.Time :=
  RunnerStatusRegistration.ExpiresAt (registration r).

(** Order of two instants, in the words of the specification. *)
Definition strictlyBefore (t u : metav1.Time) : Prop :=
  time.Before (metav1.Time_ t) (metav1.Time_ u) = true.

Definition strictlyAfter (t u : metav1.Time) : Prop :=
  time.After (metav1.Time_ t) (metav1.Time_ u) = true.

Definition sameInstant (t u : metav1.Time) : Prop :=
  time.Equal (metav1.Time_ t) (metav1.Time_ u) = true.

Definition atOrBefore (t u : metav1.Time) : Prop :=
  strictlyBefore t u \/ sameInstant t u.

Definition atOrAfter (t u : metav1.Time) : Prop :=
  sameInstant t u \/ strictlyAfter t u.

(** The instant [d] after [t] (before it, for a negative [d]). *)
Definition later (t : metav1.Time) (d : time.Duration) : metav1.Time :=
  metav1.NewTime (time.Add (metav1.Time_ t) d).

(** ** Concrete resources

    The zero values of Go, over pod and metadata types with one value each. *)

Definition bareMeta : metav1.Types :=
  {| metav1.TypeMeta := unit; metav1.ObjectMeta := unit; metav1.ListMeta := unit |}.

Definition barePod : corev1.Types :=
  {| corev1.Container := unit;
     corev1.ResourceRequirements := unit;
     corev1.VolumeMount := unit;
     corev1.EnvFromSource := unit;
     corev1.EnvVar := unit;
     corev1.Volume := unit;
     corev1.PodSecurityContext := unit;
     corev1.LocalObjectReference := unit;
     corev1.Affinity := unit;
     corev1.Toleration := unit;
     corev1.EphemeralContainer := unit |}.

(** A descriptor with the given scope fields, labels, group and ephemeral
    flag, and the zero value everywhere else. *)
Definition descriptor (enterprise organization repository : string)
    (labels : list string) (group : string) (ephemeral : option bool)
  : @RunnerSpec.t barePod :=
  @RunnerSpec.mk barePod enterprise organization repository labels group ephemeral
    [] tt [] tt [] [] EmptyString EmptyString [] [] EmptyString [] []
    (gmap_empty : gmap string string) EmptyString None None [] None [] [] None None None None.

(** A runner with the given descriptor and registration, and an otherwise
    empty status. *)
Definition runner (spec : @RunnerSpec.t barePod)
    (repository token : string) (expires : metav1.Time)
  : @Runner.t bareMeta barePod :=
  @Runner.mk bareMeta barePod tt tt spec
    (RunnerStatus.mk
       (RunnerStatusRegistration.mk EmptyString EmptyString repository [] token expires)
       EmptyString EmptyString EmptyString None).

(** Noon of 1 November 2026 (UTC), and a quarter of a second later. *)
Definition noon : metav1.Time := metav1.NewTime (time.mkTime 1793534400 0).
Definition afterNoon : metav1.Time := metav1.NewTime (time.mkTime 1793534400 250000000).

(** A runner with the given descriptor, whole registration and phase. *)
Definition observed (spec : @RunnerSpec.t barePod)
    (reg : RunnerStatusRegistration.t) (phase : string)
  : @Runner.t bareMeta barePod :=
  @Runner.mk bareMeta barePod tt tt spec
    (RunnerStatus.mk reg phase EmptyString EmptyString None).

(** What a caller sees of a validation: no error, or the text of the error
    it got, read in the state the validation left. *)
Definition outcome (res : option runtime.errorRef * runtime.World) : option string :=
  option_map (runtime.Error (snd res)) (fst res).

(** Two states of a process.  In the first nothing has happened yet, and
    the clock answers noon once and a quarter of a second later from then
    on.  In the second the clock was read seven times, always answers noon,
    and an error value exists. *)
Definition freshWorld : runtime.World :=
  runtime.mkWorld (fun n => match n with O => noon | S _ => afterNoon end) 0 [].

Definition busyWorld : runtime.World :=
  runtime.mkWorld (fun _ => noon) 7 ["an earlier error"].

(** ** Instants are totally ordered *)

Lemma Before_irrefl (t : time.Time) : time.Before t t = false.
Proof.
  unfold time.Before.
  rewrite !Z.ltb_irrefl, andb_false_r. reflexivity.
Qed.

Lemma After_flip (t u : time.Time) : time.After t u = time.Before u t.
Proof.
  unfold time.After, time.Before.
  rewrite (Z.eqb_sym (time.sec t) (time.sec u)). reflexivity.
Qed.

Lemma Before_false_iff (t u : time.Time) :
  time.Before t u = false <-> time.Equal t u = true \/ time.After t u = true.
Proof.
  unfold time.Before, time.Equal, time.After.
  destruct t as [ts tn], u as [us un]; simpl.
  rewrite orb_false_iff, andb_false_iff, orb_true_iff, !andb_true_iff.
  rewrite !Z.ltb_ge, !Z.ltb_lt, !Z.eqb_eq, Z.eqb_neq.
  split.
  - intros [Hs [Hne | Hn]].
    + right. left. lia.
    + destruct (Z.eq_dec ts us) as [-> | Hne].
      * destruct (Z.eq_dec tn un) as [-> | Hd]; [left; auto | right; right; lia].
      * right. left. lia.
  - intros [[-> ->] | [Hlt | [-> Hlt]]]; split; try lia; right; lia.
Qed.

Lemma Before_not_Equal (t u : time.Time) :
  time.Before t u = true -> time.Equal t u = false.
Proof.
  intros Hb. destruct (time.Equal t u) eqn:He; [| reflexivity].
  assert (Hf : time.Before t u = false) by (apply Before_false_iff; auto).
  congruence.
Qed.

(** For instants in normal form the order is the order of the nanosecond
    counts. *)
Lemma Before_nanoseconds (t u : time.Time) :
  0 <= time.nsec t < 1000000000 -> 0 <= time.nsec u < 1000000000 ->
  (time.Before t u = true <->
   time.sec t * 1000000000 + time.nsec t < time.sec u * 1000000000 + time.nsec u).
Proof.
  intros Ht Hu. unfold time.Before.
  rewrite orb_true_iff, andb_true_iff, !Z.ltb_lt, Z.eqb_eq. lia.
Qed.

(** Adding a positive number of whole seconds moves an instant forward, a
    negative one moves it back, whatever its nanosecond field. *)
Lemma Add_Hour_After (t : time.Time) : time.After (time.Add t time.Hour) t = true.
Proof.
  unfold time.Add.
  change (Z.quot time.Hour 1000000000) with 3600.
  change (Z.rem time.Hour 1000000000) with 0.
  unfold time.After.
  repeat match goal with |- context [if ?b then _ else _] => destruct b end;
    simpl; apply orb_true_iff; left; apply Z.ltb_lt; lia.
Qed.

Lemma Add_minus_Minute_Before (t : time.Time) :
  time.Before (time.Add t (- time.Minute)) t = true.
Proof.
  unfold time.Add.
  change (Z.quot (- time.Minute) 1000000000) with (-60).
  change (Z.rem (- time.Minute) 1000000000) with 0.
  unfold time.Before.
  repeat match goal with |- context [if ?b then _ else _] => destruct b end;
    simpl; apply orb_true_iff; left; apply Z.ltb_lt; lia.
Qed.

(** ** Scope validation, by the number of scope fields set *)

Lemma len_pos (s : string) : (0 <? len s) = isSet s.
Proof. destruct s; reflexivity. Qed.

Lemma isSet_true (s : string) : isSet s = true <-> s <> EmptyString.
Proof. destruct s; unfold isSet; simpl; split; intros H; congruence. Qed.

Lemma isSet_false (s : string) : isSet s = false <-> s = EmptyString.
Proof. destruct s; unfold isSet; simpl; split; intros H; congruence. Qed.

Lemma MissingScope_not_AmbiguousScope : MissingScope <> AmbiguousScope.
Proof. discriminate. Qed.

Section Validation.

Context {C : corev1.Types}.

Lemma ValidateRepository_by_count (rs : RunnerSpec.t) :
  RunnerSpec.ValidateRepository rs =
  match scopesSet rs with
  | O => Some MissingScope
  | S O => None
  | _ => Some AmbiguousScope
  end.
Proof.
  unfold RunnerSpec.ValidateRepository, scopesSet. rewrite !len_pos. simpl.
  destruct (isSet (RunnerSpec.Organization rs)),
           (isSet (RunnerSpec.Repository rs)),
           (isSet (RunnerSpec.Enterprise rs)); reflexivity.
Qed.

Lemma scopesSet_zero_iff (rs : RunnerSpec.t) :
  scopesSet rs = O <->
  RunnerSpec.Enterprise rs = EmptyString /\
  RunnerSpec.Organization rs = EmptyString /\
  RunnerSpec.Repository rs = EmptyString.
Proof.
  unfold scopesSet. rewrite <- !isSet_false. simpl.
  destruct (isSet (RunnerSpec.Enterprise rs)),
           (isSet (RunnerSpec.Organization rs)),
           (isSet (RunnerSpec.Repository rs)); simpl;
    split; try discriminate; try tauto;
    intros (? & ? & ?); discriminate.
Qed.

Lemma scopesSet_le_3 (rs : RunnerSpec.t) : (scopesSet rs <= 3)%nat.
Proof.
  unfold scopesSet. simpl.
  destruct (isSet (RunnerSpec.Enterprise rs)),
           (isSet (RunnerSpec.Organization rs)),
           (isSet (RunnerSpec.Repository rs)); simpl; lia.
Qed.

(** C6. A descriptor in which enterprise, organization and repository are
    all empty is rejected with the MissingScope error. *)
Theorem ValidateRepository_missing_scope (rs : RunnerSpec.t) :
  RunnerSpec.Enterprise rs = EmptyString ->
  RunnerSpec.Organization rs = EmptyString ->
  RunnerSpec.Repository rs = EmptyString ->
  RunnerSpec.ValidateRepository rs = Some MissingScope.
Proof.
  intros He Ho Hr. rewrite ValidateRepository_by_count.
  unfold scopesSet. rewrite He, Ho, Hr. reflexivity.
Qed.

(** C7. A descriptor in which two or three of enterprise, organization and
    repository are set is rejected with the AmbiguousScope error; so is, in
    particular, the descriptor with enterprise acme and organization acme. *)
Theorem ValidateRepository_ambiguous_scope :
  (forall rs : RunnerSpec.t,
     (2 <= scopesSet rs)%nat ->
     RunnerSpec.ValidateRepository rs = Some AmbiguousScope) /\
  (forall rs : RunnerSpec.t,
     RunnerSpec.Enterprise rs = "acme" ->
     RunnerSpec.Organization rs = "acme" ->
     RunnerSpec.Repository rs = EmptyString ->
     RunnerSpec.ValidateRepository rs = Some AmbiguousScope).
Proof.
  split.
  - intros rs Hn. rewrite ValidateRepository_by_count.
    destruct (scopesSet rs) as [| [| n]]; [lia | lia | reflexivity].
  - intros rs He Ho Hr. rewrite ValidateRepository_by_count.
    unfold scopesSet. rewrite He, Ho, Hr. reflexivity.
Qed.

(** C8. A descriptor in which exactly one of enterprise, organization and
    repository is set passes validation: the nil error comes back, whatever
    the other fields hold. *)
Theorem ValidateRepository_single_scope (rs : RunnerSpec.t) :
  scopesSet rs = 1%nat ->
  RunnerSpec.ValidateRepository rs = None.
Proof.
  intros Hn. rewrite ValidateRepository_by_count, Hn. reflexivity.
Qed.

(** C10. Validation reads the three scope fields only: two descriptors that
    agree on enterprise, organization and repository get the same result,
    however they differ elsewhere. *)
Theorem ValidateRepository_reads_scope_only (rs1 rs2 : RunnerSpec.t) :
  RunnerSpec.Enterprise rs1 = RunnerSpec.Enterprise rs2 ->
  RunnerSpec.Organization rs1 = RunnerSpec.Organization rs2 ->
  RunnerSpec.Repository rs1 = RunnerSpec.Repository rs2 ->
  RunnerSpec.ValidateRepository rs1 = RunnerSpec.ValidateRepository rs2.
Proof.
  intros He Ho Hr. unfold RunnerSpec.ValidateRepository.
  rewrite He, Ho, Hr. reflexivity.
Qed.

End Validation.

(** ** Registerability *)

Section Registerability.

Context {M : metav1.Types} {C : corev1.Types}.

(** The three checks of [IsRegisterable], as one condition. *)
Lemma IsRegisterable_true_iff (r : Runner.t) (now : metav1.Time) :
  Runner.IsRegisterable r now = true <->
  RunnerStatusRegistration.Repository (registration r)
    = RunnerSpec.Repository (Runner.Spec r) /\
  RunnerStatusRegistration.Token (registration r) <> EmptyString /\
  time.Before (metav1.Time_ (expiresAt r)) (metav1.Time_ now) = false.
Proof.
  unfold Runner.IsRegisterable, expiresAt, registration. simpl.
  destruct (String.eqb_spec
              (RunnerStatusRegistration.Repository
                 (RunnerStatus.Registration (Runner.Status r)))
              (RunnerSpec.Repository (Runner.Spec r))) as [Hrepo | Hrepo]; simpl.
  - destruct (String.eqb_spec
                (RunnerStatusRegistration.Token
                   (RunnerStatus.Registration (Runner.Status r)))
                EmptyString) as [Htok | Htok].
    + split; [discriminate | intros (_ & Hne & _); contradiction].
    + destruct (time.Before _ _); split;
        [discriminate | intros (_ & _ & Hb); discriminate | auto | auto].
  - split; [discriminate | intros (Heq & _); contradiction].
Qed.

Lemma IsRegisterable_false_iff (r : Runner.t) (now : metav1.Time) :
  Runner.IsRegisterable r now = false <->
  RunnerStatusRegistration.Repository (registration r)
    <> RunnerSpec.Repository (Runner.Spec r) \/
  RunnerStatusRegistration.Token (registration r) = EmptyString \/
  strictlyBefore (expiresAt r) now.
Proof.
  unfold strictlyBefore. rewrite <- not_true_iff_false, IsRegisterable_true_iff.
  destruct (string_dec (RunnerStatusRegistration.Repository (registration r))
                       (RunnerSpec.Repository (Runner.Spec r))) as [Hrepo | Hrepo];
  destruct (string_dec (RunnerStatusRegistration.Token (registration r)) EmptyString)
    as [Htok | Htok];
  destruct (time.Before (metav1.Time_ (expiresAt r)) (metav1.Time_ now));
  split; intros H; try tauto; try (intros (? & ? & ?); congruence);
  try (exfalso; apply H; auto; fail);
  try (destruct H as [H | [H | H]]; congruence).
Qed.

(** C1, as the code has it. A registration whose expiresAt is strictly
    before the current instant is not registerable; one whose repository
    echo matches and whose token is not empty is registerable when expiresAt
    is the current instant or a later one.  An expiry one minute before now
    is a case of the first part. *)
Theorem IsRegisterable_expiry (now : metav1.Time) :
  (forall r : Runner.t,
     strictlyBefore (expiresAt r) now ->
     Runner.IsRegisterable r now = false) /\
  (forall r : Runner.t,
     RunnerStatusRegistration.Repository (registration r)
       = RunnerSpec.Repository (Runner.Spec r) ->
     RunnerStatusRegistration.Token (registration r) <> EmptyString ->
     atOrAfter (expiresAt r) now ->
     Runner.IsRegisterable r now = true) /\
  (forall r : Runner.t,
     expiresAt r = later now (- time.Minute) ->
     Runner.IsRegisterable r now = false).
Proof.
  split; [| split].
  - intros r Hb. apply IsRegisterable_false_iff. auto.
  - intros r Hrepo Htok Hexp. apply IsRegisterable_true_iff.
    repeat split; [assumption | assumption |].
    apply Before_false_iff. exact Hexp.
  - intros r Hexp. apply IsRegisterable_false_iff. right. right.
    unfold strictlyBefore. rewrite Hexp. apply Add_minus_Minute_Before.
Qed.

(** C2, as the code has it. A runner whose descriptor has organization acme
    and no enterprise and no repository, and whose registration has an empty
    repository, the token abc and an expiresAt one hour after now, is
    registerable: the empty repository echo equals the empty desired
    repository. *)
Theorem IsRegisterable_organization_scope (r : Runner.t) (now : metav1.Time) :
  RunnerSpec.Organization (Runner.Spec r) = "acme" ->
  RunnerSpec.Enterprise (Runner.Spec r) = EmptyString ->
  RunnerSpec.Repository (Runner.Spec r) = EmptyString ->
  RunnerStatusRegistration.Repository (registration r) = EmptyString ->
  RunnerStatusRegistration.Token (registration r) = "abc" ->
  expiresAt r = later now time.Hour ->
  Runner.IsRegisterable r now = true.
Proof.
  intros _ _ Hrepo Hecho Htok Hexp. apply IsRegisterable_true_iff.
  rewrite Hrepo, Hecho, Htok, Hexp. repeat split; [discriminate |].
  apply Before_false_iff. right. apply Add_Hour_After.
Qed.

(** C3. A runner whose registration token is the empty string is not
    registerable, whatever its other fields and whatever the time. *)
Theorem IsRegisterable_empty_token (r : Runner.t) (now : metav1.Time) :
  RunnerStatusRegistration.Token (registration r) = EmptyString ->
  Runner.IsRegisterable r now = false.
Proof.
  intros Htok. apply IsRegisterable_false_iff. auto.
Qed.

(** C4. A runner whose registration echoes a repository that is not, byte
    for byte, the repository of its descriptor is not registerable, even
    with a token and an expiry in the future. *)
Theorem IsRegisterable_repository_mismatch (r : Runner.t) (now : metav1.Time) :
  RunnerStatusRegistration.Repository (registration r)
    <> RunnerSpec.Repository (Runner.Spec r) ->
  Runner.IsRegisterable r now = false.
Proof.
  intros Hrepo. apply IsRegisterable_false_iff. auto.
Qed.

(** C5. A runner whose registration echoes the repository of its descriptor,
    has a token and expires strictly after the current instant is
    registerable; so is, in particular, the runner of repository org/repo
    registered for org/repo with token abc and an expiry one hour from
    now. *)
Theorem IsRegisterable_fresh_registration (now : metav1.Time) :
  (forall r : Runner.t,
     RunnerStatusRegistration.Repository (registration r)
       = RunnerSpec.Repository (Runner.Spec r) ->
     RunnerStatusRegistration.Token (registration r) <> EmptyString ->
     strictlyAfter (expiresAt r) now ->
     Runner.IsRegisterable r now = true) /\
  (forall r : Runner.t,
     RunnerSpec.Repository (Runner.Spec r) = "org/repo" ->
     RunnerStatusRegistration.Repository (registration r) = "org/repo" ->
     RunnerStatusRegistration.Token (registration r) = "abc" ->
     expiresAt r = later now time.Hour ->
     Runner.IsRegisterable r now = true).
Proof.
  split.
  - intros r Hrepo Htok Hexp. apply IsRegisterable_true_iff.
    repeat split; [assumption | assumption |].
    apply Before_false_iff. right. exact Hexp.
  - intros r Hrepo Hecho Htok Hexp. apply IsRegisterable_true_iff.
    rewrite Hrepo, Hecho, Htok, Hexp. repeat split; [discriminate |].
    apply Before_false_iff. right. apply Add_Hour_After.
Qed.

(** The result of [IsRegisterable] in a process is the result at the
    instant the clock answers next. *)
Lemma Exec_IsRegisterable_result (r : Runner.t) (w : runtime.World) :
  fst (Exec.IsRegisterable r w) = Runner.IsRegisterable r (runtime.current w).
Proof.
  unfold Exec.IsRegisterable, Runner.IsRegisterable.
  destruct (negb _); [reflexivity |].
  destruct (String.eqb _ _); [reflexivity |].
  unfold runtime.bind, runtime.Now.
  destruct (metav1.Before _ _); reflexivity.
Qed.

(** [IsRegisterable] allocates nothing and reads the clock once at most. *)
Lemma Exec_IsRegisterable_world (r : Runner.t) (w : runtime.World) :
  runtime.clock (snd (Exec.IsRegisterable r w)) = runtime.clock w /\
  runtime.errorTexts (snd (Exec.IsRegisterable r w)) = runtime.errorTexts w /\
  (runtime.readings w <= runtime.readings (snd (Exec.IsRegisterable r w))
     <= S (runtime.readings w))%nat.
Proof.
  unfold Exec.IsRegisterable.
  destruct (negb _); [simpl; repeat split; lia |].
  destruct (String.eqb _ _); [simpl; repeat split; lia |].
  unfold runtime.bind, runtime.Now.
  destruct (metav1.Before _ _); simpl; repeat split; lia.
Qed.

(** What a caller sees of a validation in a process is the result of
    [ValidateRepository]. *)
Lemma Exec_ValidateRepository_outcome (rs : RunnerSpec.t) (w : runtime.World) :
  outcome (Exec.ValidateRepository rs w)
  = option_map errors.Error (RunnerSpec.ValidateRepository rs).
Proof.
  unfold Exec.ValidateRepository, RunnerSpec.ValidateRepository, outcome.
  repeat match goal with |- context [if ?b then _ else _] => destruct b end;
    try reflexivity;
    unfold runtime.bind, runtime.New, runtime.ret, runtime.Error; simpl;
    rewrite list_lookup_middle by reflexivity; reflexivity.
Qed.

(** [ValidateRepository] does not read the clock. *)
Lemma Exec_ValidateRepository_clock (rs : RunnerSpec.t) (w : runtime.World) :
  runtime.clock (snd (Exec.ValidateRepository rs w)) = runtime.clock w /\
  runtime.readings (snd (Exec.ValidateRepository rs w)) = runtime.readings w.
Proof.
  unfold Exec.ValidateRepository.
  repeat match goal with |- context [if ?b then _ else _] => destruct b end;
    split; reflexivity.
Qed.

(** C9. Both operations are deterministic.  Whatever the state of the
    process in which a descriptor is validated (the clock, the readings
    taken, the error values that exist), the caller sees the same result: no
    error, or an error of the same text.  And two evaluations of
    [IsRegisterable] on one runner, in any two states in which the clock
    answers the same instant now, give the same boolean: the outcome depends
    on the inputs and on the current instant, and on nothing else. *)
Theorem evaluations_depend_on_inputs_only :
  (forall (rs : RunnerSpec.t) (w1 w2 : runtime.World),
     outcome (Exec.ValidateRepository rs w1)
     = outcome (Exec.ValidateRepository rs w2)) /\
  (forall (r : Runner.t) (now : metav1.Time) (w1 w2 : runtime.World),
     runtime.current w1 = now ->
     runtime.current w2 = now ->
     fst (Exec.IsRegisterable r w1) = fst (Exec.IsRegisterable r w2)).
Proof.
  split.
  - intros rs w1 w2. rewrite !Exec_ValidateRepository_outcome. reflexivity.
  - intros r now w1 w2 H1 H2. rewrite !Exec_IsRegisterable_result, H1, H2.
    reflexivity.
Qed.

End Registerability.

(** ** The theorems at concrete resources *)

Lemma ValidateRepository_missing_scope_witness :
  RunnerSpec.ValidateRepository
    (descriptor EmptyString EmptyString EmptyString ["linux"] "pool" (Some true))
  = Some MissingScope.
Proof.
  apply (@ValidateRepository_missing_scope barePod); reflexivity.
Defined.

Lemma ValidateRepository_ambiguous_scope_witness :
  RunnerSpec.ValidateRepository
    (descriptor "acme" EmptyString "acme/runner" [] EmptyString None)
  = Some AmbiguousScope /\
  RunnerSpec.ValidateRepository
    (descriptor "acme" "acme" EmptyString [] EmptyString None)
  = Some AmbiguousScope.
Proof.
  split.
  - apply (proj1 (@ValidateRepository_ambiguous_scope barePod)).
    vm_compute. lia.
  - apply (proj2 (@ValidateRepository_ambiguous_scope barePod)); reflexivity.
Defined.

Lemma ValidateRepository_single_scope_witness :
  RunnerSpec.ValidateRepository
    (descriptor EmptyString EmptyString "org/repo" ["gpu"; "linux"] "pool" (Some false))
  = None.
Proof.
  apply (@ValidateRepository_single_scope barePod). reflexivity.
Defined.

Lemma ValidateRepository_reads_scope_only_witness :
  RunnerSpec.ValidateRepository
    (descriptor EmptyString "acme" EmptyString ["gpu"] "pool" (Some true))
  = RunnerSpec.ValidateRepository
    (descriptor EmptyString "acme" EmptyString [] EmptyString None).
Proof.
  apply (@ValidateRepository_reads_scope_only barePod); reflexivity.
Defined.

Lemma evaluations_depend_on_inputs_only_witness :
  outcome (Exec.ValidateRepository
             (descriptor "acme" "acme" EmptyString [] EmptyString None) freshWorld)
  = outcome (Exec.ValidateRepository
               (descriptor "acme" "acme" EmptyString [] EmptyString None) busyWorld) /\
  fst (Exec.IsRegisterable
         (runner (descriptor EmptyString EmptyString "org/repo" [] EmptyString None)
                 "org/repo" "abc" noon)
         freshWorld)
  = fst (Exec.IsRegisterable
           (runner (descriptor EmptyString EmptyString "org/repo" [] EmptyString None)
                   "org/repo" "abc" noon)
           busyWorld).
Proof.
  split.
  - apply (proj1 (@evaluations_depend_on_inputs_only bareMeta barePod)).
  - apply (proj2 (@evaluations_depend_on_inputs_only bareMeta barePod) _ noon);
      reflexivity.
Defined.

Lemma IsRegisterable_expiry_witness :
  Runner.IsRegisterable
    (runner (descriptor EmptyString EmptyString "org/repo" [] EmptyString None)
            "org/repo" "abc" noon)
    afterNoon = false /\
  Runner.IsRegisterable
    (runner (descriptor EmptyString EmptyString "org/repo" [] EmptyString None)
            "org/repo" "abc" noon)
    noon = true /\
  Runner.IsRegisterable
    (runner (descriptor EmptyString EmptyString "org/repo" [] EmptyString None)
            "org/repo" "abc" (later afterNoon (- time.Minute)))
    afterNoon = false.
Proof.
  split; [| split].
  - apply (proj1 (@IsRegisterable_expiry bareMeta barePod afterNoon)).
    reflexivity.
  - apply (proj1 (proj2 (@IsRegisterable_expiry bareMeta barePod noon))).
    + reflexivity.
    + discriminate.
    + left. reflexivity.
  - apply (proj2 (proj2 (@IsRegisterable_expiry bareMeta barePod afterNoon))).
    reflexivity.
Defined.

Lemma IsRegisterable_organization_scope_witness :
  Runner.IsRegisterable
    (runner (descriptor EmptyString "acme" EmptyString [] EmptyString None)
            EmptyString "abc" (later noon time.Hour))
    noon = true.
Proof.
  apply (@IsRegisterable_organization_scope bareMeta barePod); reflexivity.
Defined.

Lemma IsRegisterable_empty_token_witness :
  Runner.IsRegisterable
    (runner (descriptor EmptyString EmptyString "org/repo" [] EmptyString None)
            "org/repo" EmptyString (later noon time.Hour))
    noon = false.
Proof.
  apply (@IsRegisterable_empty_token bareMeta barePod). reflexivity.
Defined.

Lemma IsRegisterable_repository_mismatch_witness :
  Runner.IsRegisterable
    (runner (descriptor EmptyString EmptyString "org/repo" [] EmptyString None)
            "Org/Repo" "abc" (later noon time.Hour))
    noon = false.
Proof.
  apply (@IsRegisterable_repository_mismatch bareMeta barePod). discriminate.
Defined.

Lemma IsRegisterable_fresh_registration_witness :
  Runner.IsRegisterable
    (runner (descriptor EmptyString EmptyString "org/repo" [] EmptyString None)
            "org/repo" "abc" afterNoon)
    noon = true /\
  Runner.IsRegisterable
    (runner (descriptor EmptyString EmptyString "org/repo" [] EmptyString None)
            "org/repo" "abc" (later noon time.Hour))
    noon = true.
Proof.
  split.
  - apply (proj1 (@IsRegisterable_fresh_registration bareMeta barePod noon)).
    + reflexivity.
    + discriminate.
    + reflexivity.
  - apply (proj2 (@IsRegisterable_fresh_registration bareMeta barePod noon));
      reflexivity.
Defined.

(** ** Where the specification and the code part *)

(** C1 as the specification states it fails: a registration that expires at
    the current instant, with a matching repository and a token, is
    registerable. *)
Lemma IsRegisterable_expiring_now_counterexample :
  ~ (forall (r : @Runner.t bareMeta barePod) (now : metav1.Time),
       atOrBefore (expiresAt r) now ->
       Runner.IsRegisterable r now = false).
Proof.
  intros H.
  specialize (H (runner (descriptor EmptyString EmptyString "org/repo" [] EmptyString None)
                        "org/repo" "abc" noon)
                noon).
  assert (Hnow : atOrBefore noon noon) by (right; reflexivity).
  specialize (H Hnow). vm_compute in H. discriminate H.
Qed.

(** C2 as the specification states it fails: the organization-scoped runner
    of scenario C is registerable. *)
Lemma IsRegisterable_scenario_C_counterexample :
  ~ (forall (r : @Runner.t bareMeta barePod) (now : metav1.Time),
       RunnerSpec.Organization (Runner.Spec r) = "acme" ->
       RunnerSpec.Enterprise (Runner.Spec r) = EmptyString ->
       RunnerSpec.Repository (Runner.Spec r) = EmptyString ->
       RunnerStatusRegistration.Repository (registration r) = EmptyString ->
       RunnerStatusRegistration.Token (registration r) = "abc" ->
       expiresAt r = later now time.Hour ->
       Runner.IsRegisterable r now = false).
Proof.
  intros H.
  specialize (H (runner (descriptor EmptyString "acme" EmptyString [] EmptyString None)
                        EmptyString "abc" (later noon time.Hour))
                noon
                eq_refl eq_refl eq_refl eq_refl eq_refl eq_refl).
  vm_compute in H. discriminate H.
Qed.

(** ** Further properties of scope validation *)

Lemma filter_length_Permutation {A : Type} (f : A -> bool) (l1 l2 : list A) :
  Permutation l1 l2 ->
  length (List.filter f l1) = length (List.filter f l2).
Proof.
  induction 1 as [| x l l' _ IH | x y l | l l' l'' _ IH1 _ IH2]; simpl.
  - reflexivity.
  - destruct (f x); simpl; congruence.
  - destruct (f x), (f y); reflexivity.
  - congruence.
Qed.

Lemma isSet_same (s1 s2 : string) :
  (s1 = EmptyString <-> s2 = EmptyString) -> isSet s1 = isSet s2.
Proof.
  intros H. destruct s1, s2; try reflexivity; exfalso.
  - assert (Hd : String a s2 = EmptyString) by (apply H; reflexivity).
    discriminate Hd.
  - assert (Hd : String a s1 = EmptyString) by (apply H; reflexivity).
    discriminate Hd.
Qed.

Section ValidationFurther.

Context {C : corev1.Types}.

(** X1. Validation passes for nothing else than a single scope: when
    [ValidateRepository] returns nil, exactly one of enterprise,
    organization and repository is set and the other two are empty. *)
Theorem ValidateRepository_nil_only_single_scope (rs : RunnerSpec.t) :
  RunnerSpec.ValidateRepository rs = None ->
  (RunnerSpec.Enterprise rs <> EmptyString /\
   RunnerSpec.Organization rs = EmptyString /\
   RunnerSpec.Repository rs = EmptyString) \/
  (RunnerSpec.Enterprise rs = EmptyString /\
   RunnerSpec.Organization rs <> EmptyString /\
   RunnerSpec.Repository rs = EmptyString) \/
  (RunnerSpec.Enterprise rs = EmptyString /\
   RunnerSpec.Organization rs = EmptyString /\
   RunnerSpec.Repository rs <> EmptyString).
Proof.
  rewrite ValidateRepository_by_count. unfold scopesSet. simpl.
  rewrite <- !isSet_true, <- !isSet_false.
  destruct (isSet (RunnerSpec.Enterprise rs)),
           (isSet (RunnerSpec.Organization rs)),
           (isSet (RunnerSpec.Repository rs)); simpl; intros H;
    try discriminate H; tauto.
Qed.

(** X2. The only errors of [ValidateRepository] are the two it builds: an
    error is MissingScope, and then all three scope fields are empty, or it
    is AmbiguousScope, and then at least two of them are set. *)
Theorem ValidateRepository_error_cases (rs : RunnerSpec.t) (e : errors.error) :
  RunnerSpec.ValidateRepository rs = Some e ->
  (e = MissingScope /\
   RunnerSpec.Enterprise rs = EmptyString /\
   RunnerSpec.Organization rs = EmptyString /\
   RunnerSpec.Repository rs = EmptyString) \/
  (e = AmbiguousScope /\ (2 <= scopesSet rs)%nat).
Proof.
  rewrite ValidateRepository_by_count.
  destruct (scopesSet rs) as [| [| n]] eqn:Hn; intros H.
  - left. split; [congruence | apply scopesSet_zero_iff; exact Hn].
  - discriminate H.
  - right. split; [congruence | lia].
Qed.

(** X3. Validation looks at whether a scope field is empty and at nothing
    else of its content: two descriptors whose enterprise, organization and
    repository are empty in the same places get the same result.  No
    pattern of a name is checked. *)
Theorem ValidateRepository_emptiness_only (rs1 rs2 : RunnerSpec.t) :
  (RunnerSpec.Enterprise rs1 = EmptyString <->
   RunnerSpec.Enterprise rs2 = EmptyString) ->
  (RunnerSpec.Organization rs1 = EmptyString <->
   RunnerSpec.Organization rs2 = EmptyString) ->
  (RunnerSpec.Repository rs1 = EmptyString <->
   RunnerSpec.Repository rs2 = EmptyString) ->
  RunnerSpec.ValidateRepository rs1 = RunnerSpec.ValidateRepository rs2.
Proof.
  intros He Ho Hr. unfold RunnerSpec.ValidateRepository.
  rewrite !len_pos.
  rewrite (isSet_same _ _ He), (isSet_same _ _ Ho), (isSet_same _ _ Hr).
  reflexivity.
Qed.

(** X4. No scope level has priority over another: when the three scope
    values of one descriptor are those of another in some other order, both
    get the same result. *)
Theorem ValidateRepository_scope_order (rs1 rs2 : RunnerSpec.t) :
  Permutation
    [RunnerSpec.Enterprise rs1; RunnerSpec.Organization rs1; RunnerSpec.Repository rs1]
    [RunnerSpec.Enterprise rs2; RunnerSpec.Organization rs2; RunnerSpec.Repository rs2] ->
  RunnerSpec.ValidateRepository rs1 = RunnerSpec.ValidateRepository rs2.
Proof.
  intros Hp. rewrite !ValidateRepository_by_count. unfold scopesSet.
  rewrite (filter_length_Permutation isSet _ _ Hp). reflexivity.
Qed.

End ValidationFurther.

(** ** Further properties of registerability *)

Lemma Before_true_iff (t u : time.Time) :
  time.Before t u = true <->
  time.sec t < time.sec u \/ (time.sec t = time.sec u /\ time.nsec t < time.nsec u).
Proof.
  unfold time.Before.
  rewrite orb_true_iff, andb_true_iff, !Z.ltb_lt, Z.eqb_eq. reflexivity.
Qed.

(** An instant before [u] is before every instant that is not before [u]. *)
Lemma Before_then_not_Before (t u v : time.Time) :
  time.Before t u = true -> time.Before v u = false -> time.Before t v = true.
Proof.
  intros Htu Hvu. apply Before_true_iff. apply Before_true_iff in Htu.
  apply not_true_iff_false in Hvu. rewrite Before_true_iff in Hvu. lia.
Qed.

Section RegisterabilityFurther.

Context {M : metav1.Types} {C : corev1.Types}.

(** X5. [IsRegisterable] answers true for nothing less than a usable
    registration: then the repository echo is the repository of the
    descriptor, the token is not empty, and expiresAt is the current instant
    or a later one. *)
Theorem IsRegisterable_true_only_if (r : Runner.t) (now : metav1.Time) :
  Runner.IsRegisterable r now = true ->
  RunnerStatusRegistration.Repository (registration r)
    = RunnerSpec.Repository (Runner.Spec r) /\
  RunnerStatusRegistration.Token (registration r) <> EmptyString /\
  atOrAfter (expiresAt r) now.
Proof.
  intros H. apply IsRegisterable_true_iff in H.
  destruct H as (Hrepo & Htok & Hexp).
  repeat split; [assumption | assumption |].
  apply Before_false_iff. exact Hexp.
Qed.

(** X6. [IsRegisterable] reads the repository of the descriptor and the
    repository, token and expiresAt of the registration, and nothing else:
    two runners that agree on these four get the same answer at the same
    instant, whatever their enterprise and organization (desired or
    echoed), labels, phase or metadata. *)
Theorem IsRegisterable_reads_four_fields (r1 r2 : Runner.t) (now : metav1.Time) :
  RunnerSpec.Repository (Runner.Spec r1) = RunnerSpec.Repository (Runner.Spec r2) ->
  RunnerStatusRegistration.Repository (registration r1)
    = RunnerStatusRegistration.Repository (registration r2) ->
  RunnerStatusRegistration.Token (registration r1)
    = RunnerStatusRegistration.Token (registration r2) ->
  expiresAt r1 = expiresAt r2 ->
  Runner.IsRegisterable r1 now = Runner.IsRegisterable r2 now.
Proof.
  unfold expiresAt, registration, Runner.IsRegisterable.
  intros Hrepo Hecho Htok Hexp. rewrite Hrepo, Hecho, Htok, Hexp. reflexivity.
Qed.

(** X7. Time does not bring a registration back: a runner that is not
    registerable at one instant is not registerable at any later instant
    either. *)
Theorem IsRegisterable_false_later (r : Runner.t) (now now' : metav1.Time) :
  Runner.IsRegisterable r now = false ->
  atOrAfter now' now ->
  Runner.IsRegisterable r now' = false.
Proof.
  intros H Hlater. apply IsRegisterable_false_iff.
  apply IsRegisterable_false_iff in H.
  destruct H as [H | [H | H]]; [left; exact H | right; left; exact H |].
  right. right. unfold strictlyBefore in *.
  apply (Before_then_not_Before _ (metav1.Time_ now)); [exact H |].
  apply Before_false_iff. exact Hlater.
Qed.

(** X8. A runner that is registerable stays so for as long as its
    registration has not expired: registerable at one instant, it is
    registerable at every instant up to and including expiresAt. *)
Theorem IsRegisterable_until_expiry (r : Runner.t) (now now' : metav1.Time) :
  Runner.IsRegisterable r now = true ->
  atOrAfter (expiresAt r) now' ->
  Runner.IsRegisterable r now' = true.
Proof.
  intros H Hexp. apply IsRegisterable_true_iff.
  apply IsRegisterable_true_iff in H. destruct H as (Hrepo & Htok & _).
  repeat split; [assumption | assumption |].
  apply Before_false_iff. exact Hexp.
Qed.

(** X9. Validation and registerability together pin the scope down: a
    runner whose descriptor passes [ValidateRepository], that is
    registerable, and whose registration echoes a repository, is a
    repository runner; its enterprise and organization are empty and its
    repository is the echoed one. *)
Theorem valid_registerable_repository_runner (r : Runner.t) (now : metav1.Time) :
  RunnerSpec.ValidateRepository (Runner.Spec r) = None ->
  Runner.IsRegisterable r now = true ->
  RunnerStatusRegistration.Repository (registration r) <> EmptyString ->
  RunnerSpec.Enterprise (Runner.Spec r) = EmptyString /\
  RunnerSpec.Organization (Runner.Spec r) = EmptyString /\
  RunnerSpec.Repository (Runner.Spec r)
    = RunnerStatusRegistration.Repository (registration r).
Proof.
  intros Hv Hr Hecho. apply IsRegisterable_true_iff in Hr.
  destruct Hr as (Hrepo & _ & _). rewrite Hrepo in Hecho.
  rewrite ValidateRepository_by_count in Hv. unfold scopesSet in Hv.
  simpl in Hv. apply isSet_true in Hecho. rewrite Hecho in Hv.
  rewrite <- !isSet_false.
  destruct (isSet (RunnerSpec.Enterprise (Runner.Spec r))),
           (isSet (RunnerSpec.Organization (Runner.Spec r)));
    simpl in Hv; try discriminate Hv.
  repeat split. symmetry. exact Hrepo.
Qed.

(** X10. A registerable runner whose descriptor is valid for an enterprise
    or for an organization carries a registration with no repository
    echo. *)
Theorem valid_registerable_owner_runner (r : Runner.t) (now : metav1.Time) :
  RunnerSpec.ValidateRepository (Runner.Spec r) = None ->
  Runner.IsRegisterable r now = true ->
  RunnerSpec.Enterprise (Runner.Spec r) <> EmptyString \/
  RunnerSpec.Organization (Runner.Spec r) <> EmptyString ->
  RunnerStatusRegistration.Repository (registration r) = EmptyString.
Proof.
  intros Hv Hr Hown. apply IsRegisterable_true_iff in Hr.
  destruct Hr as (Hrepo & _ & _). rewrite Hrepo.
  rewrite ValidateRepository_by_count in Hv. unfold scopesSet in Hv.
  simpl in Hv. rewrite <- !isSet_true in Hown. apply isSet_false.
  destruct (isSet (RunnerSpec.Enterprise (Runner.Spec r))),
           (isSet (RunnerSpec.Organization (Runner.Spec r))),
           (isSet (RunnerSpec.Repository (Runner.Spec r)));
    simpl in Hv; try discriminate Hv; try reflexivity.
  destruct Hown as [Hf | Hf]; discriminate Hf.
Qed.

End RegisterabilityFurther.

(** ** The further properties at concrete resources *)

Lemma ValidateRepository_nil_only_single_scope_witness :
  RunnerSpec.Enterprise (descriptor EmptyString EmptyString "org/repo" [] EmptyString None) = EmptyString /\
  RunnerSpec.Organization (descriptor EmptyString EmptyString "org/repo" [] EmptyString None) = EmptyString /\
  RunnerSpec.Repository (descriptor EmptyString EmptyString "org/repo" [] EmptyString None) <> EmptyString.
Proof.
  destruct (@ValidateRepository_nil_only_single_scope barePod (descriptor EmptyString EmptyString "org/repo" [] EmptyString None) eq_refl)
    as [(He & _) | [(_ & Ho & _) | H]].
  - exfalso. apply He. reflexivity.
  - exfalso. apply Ho. reflexivity.
  - exact H.
Defined.

Lemma ValidateRepository_error_cases_witness :
  (AmbiguousScope = MissingScope /\
   RunnerSpec.Enterprise (descriptor "acme" "acme" "acme/runner" [] EmptyString None) = EmptyString /\
   RunnerSpec.Organization (descriptor "acme" "acme" "acme/runner" [] EmptyString None) = EmptyString /\
   RunnerSpec.Repository (descriptor "acme" "acme" "acme/runner" [] EmptyString None) = EmptyString) \/
  (AmbiguousScope = AmbiguousScope /\ (2 <= scopesSet (descriptor "acme" "acme" "acme/runner" [] EmptyString None))%nat).
Proof.
  apply (@ValidateRepository_error_cases barePod (descriptor "acme" "acme" "acme/runner" [] EmptyString None) AmbiguousScope).
  reflexivity.
Defined.

Lemma ValidateRepository_emptiness_only_witness :
  RunnerSpec.ValidateRepository
    (descriptor EmptyString EmptyString "not a repository name" [] EmptyString None)
  = RunnerSpec.ValidateRepository
    (descriptor EmptyString EmptyString "org/repo" ["linux"] "pool" None).
Proof.
  apply (@ValidateRepository_emptiness_only barePod);
    split; intros H; first [reflexivity | discriminate H].
Defined.

Lemma ValidateRepository_scope_order_witness :
  RunnerSpec.ValidateRepository
    (descriptor "acme" EmptyString EmptyString [] EmptyString None)
  = RunnerSpec.ValidateRepository
    (descriptor EmptyString EmptyString "acme" [] EmptyString None).
Proof.
  apply (@ValidateRepository_scope_order barePod). simpl.
  eapply perm_trans; [apply perm_swap | apply perm_skip, perm_swap].
Defined.

Lemma IsRegisterable_true_only_if_witness :
  RunnerStatusRegistration.Repository
    (registration
       (runner (descriptor EmptyString EmptyString "org/repo" [] EmptyString None)
               "org/repo" "abc" afterNoon))
  = RunnerSpec.Repository
      (Runner.Spec
         (runner (descriptor EmptyString EmptyString "org/repo" [] EmptyString None)
               "org/repo" "abc" afterNoon)) /\
  RunnerStatusRegistration.Token
    (registration
       (runner (descriptor EmptyString EmptyString "org/repo" [] EmptyString None)
               "org/repo" "abc" afterNoon))
  <> EmptyString /\
  atOrAfter
    (expiresAt
       (runner (descriptor EmptyString EmptyString "org/repo" [] EmptyString None)
               "org/repo" "abc" afterNoon))
    noon.
Proof.
  apply (@IsRegisterable_true_only_if bareMeta barePod).
  reflexivity.
Defined.

Lemma IsRegisterable_reads_four_fields_witness :
  Runner.IsRegisterable
    (observed (descriptor EmptyString "acme" EmptyString ["linux"] "pool" None)
              (RunnerStatusRegistration.mk EmptyString "acme" EmptyString ["linux"]
                 "abc" afterNoon)
              "Running")
    noon
  = Runner.IsRegisterable
    (observed (descriptor "corp" "acme" EmptyString [] EmptyString (Some true))
              (RunnerStatusRegistration.mk "corp" "elsewhere" EmptyString []
                 "abc" afterNoon)
              EmptyString)
    noon.
Proof.
  apply (@IsRegisterable_reads_four_fields bareMeta barePod); reflexivity.
Defined.

Lemma IsRegisterable_false_later_witness :
  Runner.IsRegisterable
    (runner (descriptor EmptyString EmptyString "org/repo" [] EmptyString None)
            "org/repo" "abc" noon)
    (later afterNoon time.Hour) = false.
Proof.
  apply (@IsRegisterable_false_later bareMeta barePod _ afterNoon).
  - reflexivity.
  - right. reflexivity.
Defined.

Lemma IsRegisterable_until_expiry_witness :
  Runner.IsRegisterable
    (runner (descriptor EmptyString EmptyString "org/repo" [] EmptyString None)
            "org/repo" "abc" afterNoon)
    afterNoon = true.
Proof.
  apply (@IsRegisterable_until_expiry bareMeta barePod _ noon).
  - reflexivity.
  - left. reflexivity.
Defined.

Lemma valid_registerable_repository_runner_witness :
  RunnerSpec.Enterprise
    (Runner.Spec
       (runner (descriptor EmptyString EmptyString "org/repo" [] EmptyString None)
               "org/repo" "abc" afterNoon))
  = EmptyString /\
  RunnerSpec.Organization
    (Runner.Spec
       (runner (descriptor EmptyString EmptyString "org/repo" [] EmptyString None)
               "org/repo" "abc" afterNoon))
  = EmptyString /\
  RunnerSpec.Repository
    (Runner.Spec
       (runner (descriptor EmptyString EmptyString "org/repo" [] EmptyString None)
               "org/repo" "abc" afterNoon))
  = RunnerStatusRegistration.Repository
      (registration
         (runner (descriptor EmptyString EmptyString "org/repo" [] EmptyString None)
               "org/repo" "abc" afterNoon)).
Proof.
  apply (@valid_registerable_repository_runner bareMeta barePod _ noon).
  - reflexivity.
  - reflexivity.
  - discriminate.
Defined.

Lemma valid_registerable_owner_runner_witness :
  RunnerStatusRegistration.Repository
    (registration
       (runner (descriptor EmptyString "acme" EmptyString [] EmptyString None)
               EmptyString "abc" afterNoon))
  = EmptyString.
Proof.
  apply (@valid_registerable_owner_runner bareMeta barePod _ noon).
  - reflexivity.
  - reflexivity.
  - right. discriminate.
Defined.
